(** * DOCX_Generator: a verification development for [file_creator.py]

    The script performs a mail merge: for every row of a CSV table it copies
    a DOCX template, replaces placeholder tokens in the runs of the copy and
    saves the result under a name derived from the row.

    The development follows the script from the leaves up:
    - [PyStr]: Python [str] values as sequences of code points, with
      [in], [str.replace] and the decimal rendering of an [int];
    - [Filename]: [generate_filename];
    - [Replacements]: the dict built in [create_docx_from_template];
    - [Docx]: the document object graph (runs live in a store, the tree
      refers to them) and the traversals [replace_text_in_paragraph],
      [replace_text_in_table] and [find_and_replace_in_document];
    - [Batch]: [create_docx_from_template] and the loop of [main] over an
      interface of the external operations (saving, loading, removing
      files), with Python's [try] / [except Exception]. *)

From Stdlib Require Import String Ascii NArith ZArith List Lia Bool.
From Stdlib Require Import DecimalString.
From stdpp Require Import base option list gmap fin_maps sorting.

Set Default Proof Using "Type".

(* ===================================================================== *)
(** ** Python strings *)
(* ===================================================================== *)

Module PyStr.

(** A Python [str] is a sequence of Unicode code points. *)
Definition char : Type := N.
Definition str : Type := list N.

(** String literals of the script are written as in the source file, which
    is UTF-8 encoded; [decode] turns the bytes of a literal into its code
    points (1- to 4-byte sequences), and [lit "..."] stands for the decoded
    literal, evaluated where it is written. *)
Fixpoint utf8_decode (pending : nat) (acc : N) (bytes : list N) : str :=
  match bytes with
  | [] => []
  | b :: rest =>
      match pending with
      | O =>
          if (b <? 128)%N then b :: utf8_decode 0 0%N rest
          else if (b <? 224)%N then utf8_decode 1 (N.land b 31) rest
          else if (b <? 240)%N then utf8_decode 2 (N.land b 15) rest
          else utf8_decode 3 (N.land b 7) rest
      | S O => (acc * 64 + N.land b 63)%N :: utf8_decode 0 0%N rest
      | S k => utf8_decode k (acc * 64 + N.land b 63)%N rest
      end
  end.

Definition decode (s : string) : str :=
  utf8_decode 0 0%N (map N_of_ascii (list_ascii_of_string s)).
Arguments decode s%_string.

Notation "'lit' s" :=
  (ltac:(let x := eval vm_compute in (decode s%string) in exact x))
  (at level 10, s at level 9, only parsing).

(** [s.startswith(k)] *)
Fixpoint starts_with (k s : str) : bool :=
  match k, s with
  | [], _ => true
  | _ :: _, [] => false
  | a :: k', b :: s' => if (a =? b)%N then starts_with k' s' else false
  end.

(** [k in s]: [k] occurs in [s] as a contiguous substring. *)
Fixpoint contains (k s : str) : bool :=
  starts_with k s ||
  match s with
  | [] => false
  | _ :: s' => contains k s'
  end.

(** [s.replace(k, v)] for a non-empty [k]: scan from the left; where [k]
    starts, emit [v] and skip the [length k] characters of the match
    ([skip] counts the characters of the current match still to drop),
    elsewhere copy the character. *)
Fixpoint replace_from (k v : str) (skip : nat) (s : str) : str :=
  match s with
  | [] => []
  | c :: s' =>
      match skip with
      | S n => replace_from k v n s'
      | O =>
          if starts_with k s then v ++ replace_from k v (length k - 1) s'
          else c :: replace_from k v 0 s'
      end
  end.

(** [s.replace(k, v)].  For the empty [k] Python inserts [v] before every
    character and once more at the end. *)
Definition py_replace (s k v : str) : str :=
  match k with
  | [] => v ++ flat_map (fun c => c :: v) s
  | _ :: _ => replace_from k v 0 s
  end.

(** [str(i)], and [{i}] in an f-string, for a Python [int]. *)
Definition str_of_int (i : Z) : str :=
  map N_of_ascii (list_ascii_of_string (NilZero.string_of_int (Z.to_int i))).

End PyStr.
Import PyStr.


(* ===================================================================== *)
(** ** Rows of the table and [generate_filename] *)
(* ===================================================================== *)

Module Filename.

(** A cell of a row read by [pd.read_csv(..., dtype=str)]: the text of the
    cell, or pandas' missing-value marker (the float NaN) for a cell that is
    empty in the file. *)
Inductive value : Type :=
| VStr (s : str)
| VNaN.

(** [str(v)] *)
Definition py_str (v : value) : str :=
  match v with
  | VStr s => s
  | VNaN => lit "nan"
  end.

(** [row_data.get(key, default)]: the row is a mapping from column name to
    cell; the default is used when the column is not there. *)
Definition row_get (row_data : gmap str value) (key : str) (dflt : value) : value :=
  default dflt (row_data !! key).

(** The four column names the script reads. *)
Definition col_address : str := lit "آدرس گیرنده".
Definition col_phone : str := lit "تلفن گیرنده".
Definition col_order_code : str := lit "کد سفارش".
Definition col_name : str := lit "نام گیرنده".

(** The character class of the pattern of [re.sub], line 124: the
    characters [<] [>] [:], the double quote, [/], the backslash, [|], [?]
    and [*]. *)
Definition invalid_filename_chars : list char :=
  [60; 62; 58; 34; 47; 92; 124; 63; 42]%N.

Definition in_class (cls : list char) (c : char) : bool :=
  existsb (N.eqb c) cls.

(** [re.sub('[cls]', repl, s)]: every character of the class is replaced
    with [repl]. *)
Definition re_sub_class (cls : list char) (repl : str) (s : str) : str :=
  flat_map (fun c => if in_class cls c then repl else [c]) s.

Definition generate_filename (row_data : gmap str value) (index : Z) : str :=
  let order_code :=
    py_replace
      (py_str (row_get row_data (lit "کد سفارش")
                 (VStr (lit "order_" ++ str_of_int index))))
      (lit "/") (lit "_") in
  let customer_name :=
    py_replace
      (py_str (row_get row_data (lit "نام گیرنده")
                 (VStr (lit "customer_" ++ str_of_int index))))
      (lit " ") (lit "_") in
  let filename := order_code ++ lit "_" ++ customer_name ++ lit ".docx" in
  re_sub_class invalid_filename_chars (lit "_") filename.

End Filename.
Import Filename.

(* ===================================================================== *)
(** ** The replacements dict *)
(* ===================================================================== *)

Module Replacements.

(** A Python [dict] from [str] to [str]: its items in insertion order, one
    per key. *)
Definition dict : Type := list (str * str).

(** [d[k] = v]: a key already there keeps its place and takes the new
    value, a new key goes to the end. *)
Fixpoint dict_set (d : dict) (k v : str) : dict :=
  match d with
  | [] => [(k, v)]
  | (k', v') :: d' =>
      if decide (k = k') then (k', v) :: d' else (k', v') :: dict_set d' k v
  end.

(** A dict display [{k1: v1, ..., kn: vn}] inserts its entries from left to
    right. *)
Definition dict_display (entries : list (str * str)) : dict :=
  fold_left (fun d kv => dict_set d kv.1 kv.2) entries [].

(** [d.items()] *)
Definition items (d : dict) : list (str * str) := d.


(** The dict built in [create_docx_from_template], lines 89-99. *)
Definition replacements (row_data : gmap str value) : dict :=
  dict_display
    [ (lit "{ستون آدرس گیرنده}", py_str (row_get row_data (lit "آدرس گیرنده") (VStr [])));
      (lit "{ستون تلفن گیرنده}", py_str (row_get row_data (lit "تلفن گیرنده") (VStr [])));
      (lit "{ستون کد سفارش}", py_str (row_get row_data (lit "کد سفارش") (VStr [])));
      (lit "{ستون نام گیرنده}", py_str (row_get row_data (lit "نام گیرنده") (VStr [])));
      (lit "ستون آدرس گیرنده", py_str (row_get row_data (lit "آدرس گیرنده") (VStr [])));
      (lit "ستون تلفن گیرنده", py_str (row_get row_data (lit "تلفن گیرنده") (VStr [])));
      (lit "ستون کد سفارش", py_str (row_get row_data (lit "کد سفارش") (VStr [])));
      (lit "ستون نام گیرنده", py_str (row_get row_data (lit "نام گیرنده") (VStr []))) ].


Definition bare (column : str) : str := lit "ستون " ++ column.
Definition bracketed (column : str) : str := lit "{" ++ bare column ++ lit "}".

Definition field_text (row_data : gmap str value) (column : str) : str :=
  match row_data !! column with
  | Some v => py_str v
  | None => []
  end.

End Replacements.
Import Replacements.

(* ===================================================================== *)
(** ** The document and the substitution engine *)
(* ===================================================================== *)

Module Docx.

(** The formatting of a run (font, weight, style). *)
Record format : Type := { font : str; bold : bool; italic : bool }.

(** A run: its text and its formatting. *)
Record run : Type := { text : str; fmt : format }.

(** The document is an object graph and the substitution mutates it in
    place.  Runs live in a store and the tree refers to them by location,
    so that a run reached twice by the traversal (the cell of a merged
    range is listed once per grid column by [row.cells]; a header linked to
    the previous section is the previous section's header) is one object,
    mutated twice. *)
Definition loc : Type := nat.

Record paragraph : Type := { runs : list loc }.
Record cell : Type := { cell_paragraphs : list paragraph }.
Record row : Type := { cells : list cell }.
Record table : Type := { rows : list row }.
(** A header or a footer. *)
Record story : Type := { story_paragraphs : list paragraph; story_tables : list table }.
(** [if section.header:] is modelled by [Some]: [None] is a falsy header. *)
Record doc_section : Type := { header : option story; footer : option story }.
Record document : Type :=
  { paragraphs : list paragraph; tables : list table; sections : list doc_section }.

(** [for x in xs: body(x)] on a state. *)
Definition for_each {A S : Type} (xs : list A) (body : A -> S -> S) (s : S) : S :=
  fold_left (fun s x => body x s) xs s.

(** [run.text = t]: the setter replaces the text and keeps the run's
    properties. *)
Definition set_text (r : run) (t : str) : run := {| text := t; fmt := fmt r |}.

(** The body of the inner loop, lines 36-37. *)
Definition replace_pair (r : run) (kv : str * str) : run :=
  if contains kv.1 (text r) then set_text r (py_replace (text r) kv.1 kv.2) else r.

(** The inner loop on one run, lines 35-37. *)
Definition replace_text_in_run (replacements : dict) (r : run) : run :=
  fold_left replace_pair (items replacements) r.

Definition replace_text_in_paragraph (p : paragraph) (replacements : dict)
  : gmap loc run -> gmap loc run :=
  for_each (runs p) (fun l =>
    for_each (items replacements) (fun kv =>
      alter (fun r => replace_pair r kv) l)).

Definition replace_text_in_table (t : table) (replacements : dict)
  : gmap loc run -> gmap loc run :=
  for_each (rows t) (fun row =>
    for_each (cells row) (fun cell =>
      for_each (cell_paragraphs cell) (fun paragraph =>
        replace_text_in_paragraph paragraph replacements))).

Definition find_and_replace_in_document (doc : document) (replacements : dict)
  : gmap loc run -> gmap loc run :=
  fun h =>
    let h := for_each (paragraphs doc)
               (fun paragraph => replace_text_in_paragraph paragraph replacements) h in
    let h := for_each (tables doc)
               (fun table => replace_text_in_table table replacements) h in
    for_each (sections doc) (fun section h =>
      let h :=
        match header section with
        | Some hd =>
            let h := for_each (story_paragraphs hd)
                       (fun paragraph => replace_text_in_paragraph paragraph replacements) h in
            for_each (story_tables hd)
              (fun table => replace_text_in_table table replacements) h
        | None => h
        end in
      match footer section with
      | Some ft =>
          let h := for_each (story_paragraphs ft)
                     (fun paragraph => replace_text_in_paragraph paragraph replacements) h in
          for_each (story_tables ft)
            (fun table => replace_text_in_table table replacements) h
      | None => h
      end) h.

(** *** Observations of a document *)

(** The texts of the runs of a paragraph, in order. *)
Definition run_texts (h : gmap loc run) (p : paragraph) : list str :=
  omap (fun l => text <$> h !! l) (runs p).

(** [paragraph.text]: the concatenation of the run texts. *)
Definition paragraph_text (h : gmap loc run) (p : paragraph) : str :=
  concat (run_texts h p).






(** The runs the traversal reaches, in the order of the visits. *)
Definition table_runs (t : table) : list loc :=
  flat_map (fun row => flat_map (fun cell => flat_map runs (cell_paragraphs cell)) (cells row))
           (rows t).

Definition story_runs (s : option story) : list loc :=
  match s with
  | Some s => flat_map runs (story_paragraphs s) ++ flat_map table_runs (story_tables s)
  | None => []
  end.

Definition visited (d : document) : list loc :=
  flat_map runs (paragraphs d) ++ flat_map table_runs (tables d) ++
  flat_map (fun s => story_runs (header s) ++ story_runs (footer s)) (sections d).

End Docx.
Import Docx.

(* ===================================================================== *)
(** ** Exceptions, the instantiator and the batch loop *)
(* ===================================================================== *)

Module Batch.

(** A computation on a state [S] that returns a value or raises an
    exception of type [E] (an instance of Python's [Exception], the class
    both handlers of the script name).  The state reached when the
    exception is raised is kept: what a [try] block has mutated stays
    mutated in its handler. *)
Inductive result (E A : Type) : Type :=
| Ok (a : A)
| Raise (e : E).
Arguments Ok {E A} a.
Arguments Raise {E A} e.

Definition M (S E A : Type) : Type := S -> result E A * S.

Definition ret {S E A : Type} (a : A) : M S E A := fun s => (Ok a, s).

Definition bind {S E A B : Type} (m : M S E A) (f : A -> M S E B) : M S E B :=
  fun s =>
    match m s with
    | (Ok a, s') => f a s'
    | (Raise e, s') => (Raise e, s')
    end.

(** [try: body / except Exception as e: handler(e)] *)
Definition try_except {S E A : Type} (body : M S E A) (handler : E -> M S E A) : M S E A :=
  fun s =>
    match body s with
    | (Ok a, s') => (Ok a, s')
    | (Raise e, s') => handler e s'
    end.

Declare Scope py_scope.
Delimit Scope py_scope with py.
Notation "x <- m ;; k" := (bind m (fun x => k))
  (at level 100, m at next level, k at level 200, right associativity) : py_scope.
Notation "m ;; k" := (bind m (fun _ => k))
  (at level 100, k at level 200, right associativity) : py_scope.
Local Open Scope py_scope.

(** A document in memory: the tree and the store of its runs. *)
Record docx : Type := { body : document; store : gmap loc run }.

(** The operations of python-docx and [os] the instantiator calls.  Each
    may raise; nothing else is assumed of them. *)
Class Ops (World exn : Type) : Type := {
  (** [doc.save(path)] *)
  doc_save : docx -> str -> M World exn unit;
  (** [Document(path)] *)
  Document : str -> M World exn docx;
  (** [os.path.exists(path)] *)
  os_path_exists : str -> World -> bool;
  (** [os.remove(path)] *)
  os_remove : str -> M World exn unit;
  (** Whether the library raises inside the substitution (the setter of
      [run.text] refuses a text that is not XML-compatible). *)
  text_setter_raises : docx -> dict -> World -> option exn;
}.

Section Instantiator.
Context {World exn : Type} {ops : Ops World exn}.

(** [print(...)]: console output is not modelled. *)
Definition print {S : Type} : M S exn unit := ret tt.

(** [find_and_replace_in_document(new_doc, replacements)] as a step of the
    instantiator: the in-place substitution, unless the library raises. *)
Definition find_and_replace (new_doc : docx) (replacements : dict) : M World exn docx :=
  fun w =>
    match text_setter_raises new_doc replacements w with
    | Some e => (Raise e, w)
    | None =>
        (Ok {| body := body new_doc;
               store := find_and_replace_in_document (body new_doc) replacements
                          (store new_doc) |}, w)
    end.

Definition temp_path : str := lit "temp_template.docx".

(** The [try] block of [create_docx_from_template], lines 78-106. *)
Definition create_docx_try (template_doc : docx) (row_data : gmap str value)
    (output_path : str) : M World exn bool :=
  doc_save template_doc temp_path ;;
  new_doc <- Document temp_path ;;
  (fun w => if os_path_exists temp_path w then os_remove temp_path w else ret tt w) ;;
  new_doc <- find_and_replace new_doc (replacements row_data) ;;
  doc_save new_doc output_path ;;
  ret true.

Definition create_docx_from_template (template_doc : docx) (row_data : gmap str value)
    (output_path : str) : M World exn bool :=
  try_except (create_docx_try template_doc row_data output_path)
             (fun e => print ;; ret false).

(** [os.path.join(a, b)] (posixpath). *)
Definition os_path_join (a b : str) : str :=
  if starts_with (lit "/") b then b
  else match a with
       | [] => b
       | _ :: _ => if (List.last a 0%N =? 47)%N then a ++ b else a ++ lit "/" ++ b
       end.

(** The two counters of [main]. *)
Record counters : Type := { successful_count : nat; failed_count : nat }.

Definition incr_successful : M (counters * World) exn unit :=
  fun s => (Ok tt, ({| successful_count := successful_count s.1 + 1;
                       failed_count := failed_count s.1 |}, s.2)).

Definition incr_failed : M (counters * World) exn unit :=
  fun s => (Ok tt, ({| successful_count := successful_count s.1;
                       failed_count := failed_count s.1 + 1 |}, s.2)).

(** A computation on the world, run where the counters are in scope. *)
Definition on_world {A : Type} (m : M World exn A) : M (counters * World) exn A :=
  fun s => let '(r, w) := m s.2 in (r, (s.1, w)).

(** The body of the loop of [main], lines 213-228. *)
Definition process_row (template_doc : docx) (output_directory : str)
    (index : Z) (row : gmap str value) : M (counters * World) exn unit :=
  try_except
    (let filename := generate_filename row (index + 1) in
     let output_path := os_path_join output_directory filename in
     created <- on_world (create_docx_from_template template_doc row output_path) ;;
     if created : bool then incr_successful ;; print
     else incr_failed ;; print)
    (fun e => incr_failed ;; print).

(** [for index, row in df.iterrows(): ...], the index counting the rows
    from [index]. *)
Fixpoint process_rows (template_doc : docx) (output_directory : str)
    (index : Z) (df : list (gmap str value)) : M (counters * World) exn unit :=
  match df with
  | [] => ret tt
  | row :: rest =>
      process_row template_doc output_directory index row ;;
      process_rows template_doc output_directory (index + 1) rest
  end.

(** Lines 209-228 of [main]: both counters start at zero and the rows are
    numbered from zero. *)
Definition main_loop (template_doc : docx) (df : list (gmap str value))
  : M (counters * World) exn unit :=
  fun s =>
    process_rows template_doc (lit "generated_documents") 0 df
      ({| successful_count := 0; failed_count := 0 |}, s.2).

(** What [create_docx_from_template] returned for each row, in order: the
    same calls on the same worlds as [process_rows] makes. *)
Fixpoint outcomes (template_doc : docx) (output_directory : str)
    (index : Z) (df : list (gmap str value)) (w : World) : list (result exn bool) :=
  match df with
  | [] => []
  | row :: rest =>
      let '(r, w') :=
        create_docx_from_template template_doc row
          (os_path_join output_directory (generate_filename row (index + 1))) w in
      r :: outcomes template_doc output_directory (index + 1) rest w'
  end.

(** The tally of a list of outcomes: a row is counted as succeeded when the
    instantiator returned [True] and as failed otherwise. *)
Definition count_outcome (c : counters) (o : result exn bool) : counters :=
  match o with
  | Ok true => {| successful_count := successful_count c + 1;
                  failed_count := failed_count c |}
  | _ => {| successful_count := successful_count c;
            failed_count := failed_count c + 1 |}
  end.

End Instantiator.

(** *** A file system with one injected fault *)

(** A file holds a document, or is a partial write. *)
Inductive file : Type :=
| Package (d : docx)
| Truncated.

Inductive sim_exn : Type := OSError | PackageNotFoundError | ValueError.

Inductive fault : Type :=
| NoFault
| SaveFails (path : str)   (* saving to [path] raises, a partial file is left *)
| LoadFails                (* [Document] raises *)
| RemoveFails              (* [os.remove] raises *)
| SetterFails.             (* the setter of [run.text] raises *)

#[export] Instance sim_ops (f : fault) : Ops (gmap str file) sim_exn := {|
  doc_save d path fs :=
    match f with
    | SaveFails p =>
        if decide (path = p) then (Raise OSError, <[path := Truncated]> fs)
        else (Ok tt, <[path := Package d]> fs)
    | _ => (Ok tt, <[path := Package d]> fs)
    end;
  Document path fs :=
    match f, fs !! path with
    | LoadFails, _ => (Raise PackageNotFoundError, fs)
    | _, Some (Package d) => (Ok d, fs)
    | _, _ => (Raise PackageNotFoundError, fs)
    end;
  os_path_exists path fs := bool_decide (is_Some (fs !! path));
  os_remove path fs :=
    match f, fs !! path with
    | RemoveFails, _ => (Raise OSError, fs)
    | _, Some _ => (Ok tt, delete path fs)
    | _, None => (Raise OSError, fs)
    end;
  text_setter_raises _ _ _ :=
    match f with
    | SetterFails => Some ValueError
    | _ => None
    end;
|}.

End Batch.
Import Batch.

(* ===================================================================== *)
(** ** Vocabulary of the statements *)
(* ===================================================================== *)

Module Spec.

(** [Replaced k v s t]: [t] is [s] with every occurrence of the non-empty
    [k] replaced with [v], the occurrences taken from the left and not
    overlapping: either [k] does not occur in [s], or [s] is
    [pre ++ k ++ rest] with no occurrence of [k] starting inside [pre], and
    [t] is [pre ++ v] followed by [rest] treated the same way. *)
Inductive Replaced (k v : str) : str -> str -> Prop :=
| Replaced_none (s : str) :
    contains k s = false -> Replaced k v s s
| Replaced_first (pre rest rest' : str) :
    (forall i, i < length pre -> starts_with k (drop i (pre ++ k ++ rest)) = false) ->
    Replaced k v rest rest' ->
    Replaced k v (pre ++ k ++ rest) (pre ++ v ++ rest').





(** Every key of the script's dict starts with an opening brace or with the
    letter seen (the first letter of the word that opens every label).  A
    text without these two characters cannot hold, begin or complete a
    key. *)
Definition lbrace : char := 123%N.
Definition seen : char := 1587%N.

Definition inert (s : str) : bool :=
  forallb (fun c => negb (c =? lbrace)%N && negb (c =? seen)%N) s.

Definition key_head (k : str) : bool :=
  match k with
  | c :: _ => (c =? lbrace)%N || (c =? seen)%N
  | [] => false
  end.



(** A token [k] is split across the consecutive runs with texts [ts]: an
    occurrence of [k] in their concatenation starts inside the first of
    them and ends inside the last, and none of them holds [k] whole. *)
Definition split_across (k : str) (ts : list str) : Prop :=
  2 <= length ts /\
  (exists pre post,
      concat ts = pre ++ k ++ post /\
      length pre < length (hd [] ts) /\
      length post < length (List.last ts [])) /\
  Forall (fun t => contains k t = false) ts.

(** The replacement of one character by another, as a map. *)
Definition subst_char (a b : char) (s : str) : str :=
  map (fun c => if (c =? a)%N then b else c) s.
Arguments subst_char (a b)%_N s.

(** The post-processing of the file name, as a map. *)
Definition sanitize (s : str) : str :=
  map (fun c => if in_class invalid_filename_chars c then 95%N else c) s.

End Spec.
Import Spec.

(* ===================================================================== *)
(** ** Sample rows and documents *)
(* ===================================================================== *)

Module Samples.

(** A row whose order code and recipient name are there and empty. *)
Definition row_empty_fields : gmap str value :=
  {[ col_order_code := VStr []; col_name := VStr [] ]}.

(** A row as pandas yields it when both cells are empty in the file. *)
Definition row_nan_fields : gmap str value :=
  {[ col_order_code := VNaN; col_name := VNaN ]}.

(** A row with the two columns missing altogether. *)
Definition row_no_columns : gmap str value := ∅.

(** A full row. *)
Definition row_full : gmap str value :=
  {[ col_address := VStr (lit "Tehran, Valiasr St. 12");
     col_phone := VStr (lit "09121234567");
     col_order_code := VStr (lit "A/17");
     col_name := VStr (lit "Sara Ahmadi") ]}.



Definition plain : format := {| font := lit "B Nazanin"; bold := false; italic := false |}.
Definition heavy : format := {| font := lit "B Titr"; bold := true; italic := false |}.

(** A paragraph of two runs; the bracketed placeholder of the order code is
    split between them, in two ways: before the closing brace, and in the
    middle of the label. *)
Definition par_two : paragraph := {| runs := [0; 1] |}.

Definition store_split_brace : gmap loc run :=
  {[ 0 := {| text := lit "{ستون کد سفارش"; fmt := plain |};
     1 := {| text := lit "}"; fmt := heavy |} ]}.

Definition store_split_label : gmap loc run :=
  {[ 0 := {| text := lit "{ستون کد "; fmt := plain |};
     1 := {| text := lit "سفارش}"; fmt := heavy |} ]}.

(** A document with a paragraph of two runs, a table of one cell, and one
    section with a header and no footer. *)
Definition doc_small : document :=
  {| paragraphs := [ {| runs := [0; 1] |} ];
     tables := [ {| rows := [ {| cells := [ {| cell_paragraphs := [ {| runs := [2] |} ] |} ] |} ] |} ];
     sections := [ {| header := Some {| story_paragraphs := [ {| runs := [3] |} ];
                                        story_tables := [] |};
                      footer := None |} ] |}.

Definition store_small : gmap loc run :=
  {[ 0 := {| text := lit "Dear {ستون نام گیرنده},"; fmt := heavy |};
     1 := {| text := lit " welcome."; fmt := plain |};
     2 := {| text := lit "{ستون کد سفارش}"; fmt := plain |};
     3 := {| text := lit "Forward"; fmt := heavy |};
     4 := {| text := lit "{ستون نام گیرنده}"; fmt := plain |} ]}.

(** A template in memory, and a table of three rows. *)
Definition template_small : docx := {| body := doc_small; store := store_small |}.

Definition df_three : list (gmap str value) :=
  [ {[ col_order_code := VStr (lit "A/17"); col_name := VStr (lit "Sara Ahmadi") ]};
    {[ col_order_code := VStr (lit "B-2"); col_name := VStr (lit "Reza") ]};
    {[ col_order_code := VStr (lit "C3"); col_name := VStr (lit "Mina") ]} ].

End Samples.
Import Samples.

(* ===================================================================== *)
(** ** The report on the template *)
(* ===================================================================== *)

Module Analysis.

(** [sep.join(xs)] *)
Fixpoint join (sep : str) (xs : list str) : str :=
  match xs with
  | [] => []
  | x :: rest =>
      match rest with
      | [] => x
      | _ :: _ => x ++ sep ++ join sep rest
      end
  end.

(** [cell.text]: the texts of the paragraphs of the cell, joined by
    newlines. *)
Definition cell_text (h : gmap loc run) (c : cell) : str :=
  join [10%N] (map (paragraph_text h) (cell_paragraphs c)).

(** The longest prefix of [s] without a closing brace, and what follows
    it. *)
Fixpoint span_body (s : str) : str * str :=
  match s with
  | [] => ([], [])
  | c :: s' =>
      if (c =? 125)%N then ([], s)
      else let '(inner, rest) := span_body s' in (c :: inner, rest)
  end.

(** [re.findall(pattern, s)] for the pattern of lines 157 and 165: an
    opening brace, one or more characters other than the closing brace (as
    many as there are), a closing brace.  The text is scanned from the
    left; after a match the scan resumes behind it ([skip] counts the
    characters of the match still to pass), elsewhere it moves on by one
    character. *)
Fixpoint findall_from (skip : nat) (s : str) : list str :=
  match s with
  | [] => []
  | c :: s' =>
      match skip with
      | S n => findall_from n s'
      | O =>
          if (c =? 123)%N then
            match span_body s' with
            | (b :: inner, _ :: _) =>
                (c :: b :: inner ++ [125%N]) :: findall_from (length (b :: inner) + 1) s'
            | _ => findall_from 0 s'
            end
          else findall_from 0 s'
      end
  end.

Definition re_findall_braces (s : str) : list str := findall_from 0 s.

(** The order of Python on [str]: lexicographic on the code points. *)
Fixpoint str_leb (a b : str) : bool :=
  match a, b with
  | [], _ => true
  | _ :: _, [] => false
  | x :: a', y :: b' =>
      if (x <? y)%N then true else if (x =? y)%N then str_leb a' b' else false
  end.

Definition str_le (a b : str) : Prop := str_leb a b = true.

#[export] Instance str_le_dec (a b : str) : Decision (str_le a b).
Proof. unfold str_le. apply _. Defined.

(** The placeholders of one text, lines 155-158 and 164-166. *)
Definition found_placeholders (text : str) : list str :=
  if contains [123%N] text && contains [125%N] text then re_findall_braces text else [].

(** [analyze_template_structure], lines 149-173: the placeholders it
    prints, in the order it prints them (none when it prints that it has
    found none).  They are collected in a set from the texts of the
    top-level paragraphs and of the cells of the top-level tables, and
    printed sorted.  The first part of the report (excerpts of the
    paragraphs, sizes of the tables) is not modelled. *)
Definition analyze_template_structure (template_doc : docx) : list str :=
  let h := store template_doc in
  let placeholders : gset str := ∅ in
  let placeholders :=
    for_each (paragraphs (body template_doc))
      (fun paragraph placeholders =>
         placeholders ∪ list_to_set (found_placeholders (paragraph_text h paragraph)))
      placeholders in
  let placeholders :=
    for_each (tables (body template_doc)) (fun table =>
      for_each (rows table) (fun row =>
        for_each (cells row) (fun cell placeholders =>
          placeholders ∪ list_to_set (found_placeholders (cell_text h cell)))))
      placeholders in
  merge_sort str_le (elements placeholders).

(** *** Vocabulary *)

(** A text written as plain stretches and placeholders. *)
Inductive piece : Type :=
| Plain (t : str)
| Token (inner : str).

Definition braced (inner : str) : str := 123%N :: inner ++ [125%N].

Definition render_piece (p : piece) : str :=
  match p with
  | Plain t => t
  | Token inner => braced inner
  end.

Definition render (ps : list piece) : str := concat (map render_piece ps).

Definition tokens (ps : list piece) : list str :=
  omap (fun p => match p with Token inner => Some (braced inner) | Plain _ => None end) ps.

(** A plain stretch holds no opening brace; the inside of a placeholder is
    not empty and holds no closing brace. *)
Definition well_formed (p : piece) : Prop :=
  match p with
  | Plain t => 123%N ∉ t
  | Token inner => inner <> [] /\ 125%N ∉ inner
  end.



End Analysis.
Import Analysis.

(* ===================================================================== *)
(** ** Reading the inputs, [main] and the script *)
(* ===================================================================== *)

Module Script.
Local Open Scope py_scope.

(** The operations of [os] and pandas that [main] calls besides those of
    the instantiator. *)
Class ScriptOps (World exn : Type) : Type := {
  script_ops :: Ops World exn;
  (** [os.makedirs(path)] *)
  os_makedirs : str -> M World exn unit;
  (** [pd.read_csv(path, ...)]: the rows of the table, in order. *)
  pd_read_csv : str -> M World exn (list (gmap str value));
}.

Section ScriptDefs.
Context {World exn : Type} {sops : ScriptOps World exn}.

(** Lines 8-18: [None] stands for Python's [None]. *)
Definition read_csv_file (csv_path : str) : M World exn (option (list (gmap str value))) :=
  try_except
    (df <- pd_read_csv csv_path ;;
     print ;;
     ret (Some df))
    (fun e => print ;; ret None).

(** Lines 21-29. *)
Definition read_template_docx (template_path : str) : M World exn (option docx) :=
  try_except
    (doc <- Document template_path ;;
     print ;;
     ret (Some doc))
    (fun e => print ;; ret None).

(** The loop of [main] with its two counters, which are local to [main]:
    the counters as the summary prints them. *)
Definition run_loop (template_doc : docx) (df : list (gmap str value))
  : M World exn counters :=
  fun w =>
    let '(r, (c, w')) :=
      main_loop template_doc df ({| successful_count := 0; failed_count := 0 |}, w) in
    (match r with Ok _ => Ok c | Raise e => Raise e end, w').

(** Lines 178-236. *)
Definition main : M World exn unit :=
  let csv_file_path := lit "csv.csv" in
  let template_file_path := lit "Forward Template.docx" in
  let output_directory := lit "generated_documents" in
  (fun w => if negb (os_path_exists output_directory w)
            then (os_makedirs output_directory ;; print) w
            else ret tt w) ;;
  template_doc <- read_template_docx template_file_path ;;
  match template_doc with
  | None => print ;; print ;; ret tt
  | Some template_doc =>
      let report := analyze_template_structure template_doc in
      print ;;
      df <- read_csv_file csv_file_path ;;
      match df with
      | None => ret tt
      | Some df =>
          print ;;
          summary <- run_loop template_doc df ;;
          print ;;
          ret tt
      end
  end.

(** Lines 239-255. *)
Definition required_files : list str := [lit "csv.csv"; lit "Forward Template.docx"].

Definition missing_files (w : World) : list str :=
  List.filter (fun file_path => negb (os_path_exists file_path w)) required_files.

Definition check_files_exist : M World exn bool :=
  fun w =>
    match missing_files w with
    | _ :: _ => (print ;; ret false) w
    | [] => ret true w
    end.

(** How the process ends: [exit(code)], the end of the script, or an
    exception nobody has caught. *)
Inductive ending : Type :=
| Exit (code : Z)
| Completed
| Uncaught (e : exn).

(** Lines 258-263. *)
Definition script (w : World) : ending * World :=
  match check_files_exist w with
  | (Ok false, w1) => (Exit 1, w1)
  | (Ok true, w1) =>
      match main w1 with
      | (Ok _, w2) => (Completed, w2)
      | (Raise e, w2) => (Uncaught e, w2)
      end
  | (Raise e, w1) => (Uncaught e, w1)
  end.

(** The output path of each row of a table whose first row has index
    [index], as the loop of [main] builds them. *)
Fixpoint output_paths (output_directory : str) (index : Z)
    (df : list (gmap str value)) : list str :=
  match df with
  | [] => []
  | row :: rest =>
      os_path_join output_directory (generate_filename row (index + 1))
      :: output_paths output_directory (index + 1) rest
  end.

End ScriptDefs.

Arguments Exit {exn} code.
Arguments Completed {exn}.
Arguments Uncaught {exn} e.

(** The document the instantiator saves for a row. *)
Definition substituted (template_doc : docx) (row : gmap str value) : docx :=
  {| body := body template_doc;
     store := find_and_replace_in_document (body template_doc) (replacements row)
                (store template_doc) |}.

(** *** A disk with documents, tables and directories *)

Record disk : Type := {
  disk_docs : gmap str file;
  disk_csvs : gmap str (list (gmap str value));
  disk_dirs : gset str;
}.

Inductive script_fault : Type :=
| NoScriptFault
| MakedirsFails     (* [os.makedirs] raises *)
| CsvFails.         (* [pd.read_csv] raises *)

(** An operation on the documents of the disk. *)
Definition on_docs {A : Type} (m : M (gmap str file) sim_exn A) : M disk sim_exn A :=
  fun d =>
    let '(r, fs) := m (disk_docs d) in
    (r, {| disk_docs := fs; disk_csvs := disk_csvs d; disk_dirs := disk_dirs d |}).

#[export] Instance disk_base (f : fault) : Ops disk sim_exn := {|
  doc_save doc path := on_docs (doc_save (Ops := sim_ops f) doc path);
  Document path := on_docs (Document (Ops := sim_ops f) path);
  os_path_exists path d :=
    bool_decide (is_Some (disk_docs d !! path)) ||
    bool_decide (is_Some (disk_csvs d !! path)) ||
    bool_decide (path ∈ disk_dirs d);
  os_remove path := on_docs (os_remove (Ops := sim_ops f) path);
  text_setter_raises doc m d := text_setter_raises (Ops := sim_ops f) doc m (disk_docs d);
|}.

#[export] Instance disk_ops (f : fault) (g : script_fault) : ScriptOps disk sim_exn := {|
  script_ops := disk_base f;
  os_makedirs path d :=
    match g with
    | MakedirsFails => (Raise OSError, d)
    | _ =>
        if bool_decide (path ∈ disk_dirs d) then (Raise OSError, d)
        else (Ok tt, {| disk_docs := disk_docs d; disk_csvs := disk_csvs d;
                        disk_dirs := {[ path ]} ∪ disk_dirs d |})
    end;
  pd_read_csv path d :=
    match g, disk_csvs d !! path with
    | CsvFails, _ => (Raise ValueError, d)
    | _, Some rows => (Ok rows, d)
    | _, None => (Raise OSError, d)
    end;
|}.

(** Sample disks: nothing on it; the two inputs; the template alone. *)
Definition disk_empty : disk :=
  {| disk_docs := ∅; disk_csvs := ∅; disk_dirs := ∅ |}.



End Script.
Import Script.

(* ===================================================================== *)
(** * Properties *)
(* ===================================================================== *)

(** ** Strings *)

Section PyStrFacts.
Implicit Types (k v s t pre post rest : str) (c : char).

Lemma starts_with_app k s : starts_with k (k ++ s) = true.
Proof. induction k as [|a k IH]; simpl; [done|]. by rewrite N.eqb_refl. Qed.

Lemma starts_with_true k s : starts_with k s = true -> exists rest, s = k ++ rest.
Proof.
  revert s. induction k as [|a k IH]; intros s H; simpl in *; [by exists s|].
  destruct s as [|b s]; [done|].
  destruct (N.eqb_spec a b) as [->|]; [|done].
  destruct (IH _ H) as [rest ->]. by exists rest.
Qed.

Lemma starts_with_nil_r k : k <> [] -> starts_with k [] = false.
Proof. by destruct k. Qed.

Lemma contains_nil_r k : k <> [] -> contains k [] = false.
Proof. by destruct k. Qed.

Lemma contains_cons k c s :
  contains k (c :: s) = starts_with k (c :: s) || contains k s.
Proof. done. Qed.



Lemma contains_true k s : contains k s = true -> exists pre post, s = pre ++ k ++ post.
Proof.
  induction s as [|c s IH]; simpl; intros H.
  - rewrite orb_false_r in H. destruct (starts_with_true _ _ H) as [rest ->].
    by exists [], rest.
  - apply orb_true_iff in H as [H|H].
    + destruct (starts_with_true _ _ H) as [rest ->]. by exists [], rest.
    + destruct (IH H) as (pre & post & ->). by exists (c :: pre), post.
Qed.

(** A key that occurs in a text has its first character in the text. *)
Lemma contains_head c k s : contains (c :: k) s = true -> In c s.
Proof.
  intros H. destruct (contains_true _ _ H) as (pre & post & ->).
  apply in_or_app. right. by left.
Qed.

Lemma replace_from_skip k v n s :
  n <= length s -> replace_from k v n s = replace_from k v 0 (drop n s).
Proof.
  revert n. induction s as [|c s IH]; intros n Hn; simpl in *.
  - by destruct n.
  - destruct n as [|n]; [done|]. simpl. apply IH. lia.
Qed.

Lemma py_replace_nil k v : k <> [] -> py_replace [] k v = [].
Proof. by destruct k. Qed.

Lemma py_replace_hit k v rest :
  k <> [] -> py_replace (k ++ rest) k v = v ++ py_replace rest k v.
Proof.
  intros Hk. destruct k as [|a k]; [done|].
  unfold py_replace. cbn [app replace_from].
  change (a :: k ++ rest) with ((a :: k) ++ rest).
  rewrite starts_with_app. f_equal.
  rewrite replace_from_skip by (rewrite length_app; simpl; lia).
  f_equal. simpl. rewrite Nat.sub_0_r. by rewrite drop_app_length.
Qed.

Lemma py_replace_miss k v c s :
  starts_with k (c :: s) = false -> py_replace (c :: s) k v = c :: py_replace s k v.
Proof.
  intros H. destruct k as [|a k]; [done|].
  unfold py_replace. cbn [replace_from]. by rewrite H.
Qed.

(** Replacing a key that is not in the text changes nothing: the test
    [if placeholder in run.text] only saves work. *)
Lemma py_replace_absent k v s : contains k s = false -> py_replace s k v = s.
Proof.
  induction s as [|c s IH]; intros H.
  - apply py_replace_nil. by intros ->.
  - rewrite contains_cons in H. apply orb_false_iff in H as [H1 H2].
    rewrite py_replace_miss by done. f_equal. by apply IH.
Qed.

Lemma Replaced_cons k v c s t :
  starts_with k (c :: s) = false -> Replaced k v s t -> Replaced k v (c :: s) (c :: t).
Proof.
  intros Hc H. destruct H as [s Hs | pre rest rest' Hpre Hrest].
  - apply Replaced_none. rewrite contains_cons, Hc, Hs. done.
  - apply (Replaced_first k v (c :: pre) rest rest'); [|done].
    intros [|i] Hi; simpl; [done|]. apply Hpre. simpl in Hi. lia.
Qed.

(** [str.replace] replaces every occurrence, from the left. *)
Lemma py_replace_Replaced k v s : k <> [] -> Replaced k v s (py_replace s k v).
Proof.
  intros Hk. remember (length s) as n eqn:Hn. revert s Hn.
  induction n as [n IH] using lt_wf_ind. intros s ->.
  destruct s as [|c s].
  - rewrite py_replace_nil by done. apply Replaced_none. by apply contains_nil_r.
  - destruct (starts_with k (c :: s)) eqn:E.
    + destruct (starts_with_true _ _ E) as [rest Hrest]. rewrite Hrest.
      rewrite py_replace_hit by done.
      apply (Replaced_first k v [] rest); [simpl; lia|].
      apply (IH (length rest)); [|done].
      rewrite Hrest, length_app. destruct k; [done|simpl; lia].
    + rewrite py_replace_miss by done. apply Replaced_cons; [done|].
      apply (IH (length s)); [simpl; lia|done].
Qed.

Lemma py_replace_first k v pre rest :
  k <> [] ->
  (forall i, i < length pre -> starts_with k (drop i (pre ++ k ++ rest)) = false) ->
  py_replace (pre ++ k ++ rest) k v = pre ++ v ++ py_replace rest k v.
Proof.
  intros Hk. induction pre as [|c pre IH]; intros H; simpl.
  - by apply py_replace_hit.
  - rewrite py_replace_miss by (apply (H 0); simpl; lia).
    f_equal. apply IH. intros i Hi. apply (H (S i)). simpl. lia.
Qed.

(** The relation determines the result. *)
Lemma Replaced_py_replace k v s t : k <> [] -> Replaced k v s t -> t = py_replace s k v.
Proof.
  intros Hk H. induction H as [s Hs | pre rest rest' Hpre _ IH].
  - by rewrite py_replace_absent.
  - rewrite py_replace_first by done. by rewrite IH.
Qed.

End PyStrFacts.

Example decode_order_code :
  decode "کد سفارش" = [1705; 1583; 32; 1587; 1601; 1575; 1585; 1588]%N.
Proof. vm_compute. reflexivity. Qed.

Example py_replace_examples :
  py_replace (lit "a/b//c") (lit "/") (lit "_") = lit "a_b__c" /\
  py_replace (lit "aaaa") (lit "aa") (lit "b") = lit "bb" /\
  py_replace (lit "aaa") (lit "aa") (lit "b") = lit "ba" /\
  py_replace (lit "ab") [] (lit "-") = lit "-a-b-" /\
  py_replace (lit "aabb") (lit "ab") [] = lit "ab".
Proof. repeat split; reflexivity. Qed.

(** X3: [str.replace] with a non-empty key is characterised by [Replaced]:
    the result is the only text related to the input. *)
Theorem py_replace_characterised (k v s t : str) :
  k <> [] -> Replaced k v s t <-> t = py_replace s k v.
Proof.
  intros Hk. split.
  - by apply Replaced_py_replace.
  - intros ->. by apply py_replace_Replaced.
Qed.

(** X3, at overlapping occurrences, which are taken from the left: in [aaa]
    the key [aa] is replaced once. *)
Lemma py_replace_characterised_witness :
  Replaced (lit "aa") (lit "b") (lit "aaa") (lit "ba").
Proof. apply (py_replace_characterised (lit "aa") (lit "b")); [discriminate|reflexivity]. Defined.

Example str_of_int_examples :
  str_of_int 5 = lit "5" /\ str_of_int 120 = lit "120" /\
  str_of_int 0 = lit "0" /\ str_of_int (-7) = lit "-7".
Proof. repeat split; reflexivity. Qed.

(** ** [generate_filename] *)

Section FilenameFacts.
Implicit Types (s t : str) (c : char) (row : gmap str value) (index : Z).

Lemma py_replace_char a b s : py_replace s [a] [b] = subst_char a b s.
Proof.
  unfold subst_char. induction s as [|c s IH]; [done|].
  destruct (N.eqb_spec c a) as [->|Hne].
  - change (a :: s) with ([a] ++ s). rewrite py_replace_hit by done.
    cbn [map app]. rewrite N.eqb_refl. f_equal. exact IH.
  - rewrite py_replace_miss.
    + cbn [map]. destruct (N.eqb_spec c a); [done|]. f_equal. exact IH.
    + cbn [starts_with]. destruct (N.eqb_spec a c); [congruence|done].
Qed.

Lemma re_sub_class_char cls u s :
  re_sub_class cls [u] s = map (fun c => if in_class cls c then u else c) s.
Proof.
  unfold re_sub_class. induction s as [|c s IH]; [done|].
  cbn [flat_map map]. rewrite IH. by destruct (in_class cls c).
Qed.



Lemma sanitize_app s t : sanitize (s ++ t) = sanitize s ++ sanitize t.
Proof. apply map_app. Qed.

Lemma sanitize_clean s :
  Forall (fun c => in_class invalid_filename_chars c = false) (sanitize s).
Proof.
  unfold sanitize. induction s as [|c s IH]; cbn [map]; [constructor|].
  constructor; [|exact IH].
  destruct (in_class invalid_filename_chars c) eqn:E; [reflexivity|exact E].
Qed.

Lemma sanitize_id s :
  Forall (fun c => in_class invalid_filename_chars c = false) s -> sanitize s = s.
Proof.
  unfold sanitize. induction 1 as [|c s Hc _ IH]; cbn [map]; [done|].
  by rewrite Hc, IH.
Qed.

Lemma uint_digits_valid d :
  Forall (fun c => in_class invalid_filename_chars c = false)
         (map N_of_ascii (list_ascii_of_string (NilEmpty.string_of_uint d))).
Proof. induction d; simpl; constructor; solve [reflexivity | assumption]. Qed.

(** The decimal rendering of an index holds digits and at most a minus
    sign, none of them an invalid character. *)
Lemma str_of_int_valid index :
  Forall (fun c => in_class invalid_filename_chars c = false) (str_of_int index).
Proof.
  unfold str_of_int. destruct (Z.to_int index) as [d|d]; simpl.
  - destruct d; try apply uint_digits_valid. by repeat constructor.
  - constructor; [done|].
    destruct d; try apply uint_digits_valid. by repeat constructor.
Qed.

Lemma str_of_int_no_char a index :
  (a =? 45)%N = false -> (a <? 48)%N || (57 <? a)%N = true ->
  subst_char a 95 (str_of_int index) = str_of_int index.
Proof.
  intros Hminus Hdigit.
  assert (Hall : Forall (fun c => (c =? a)%N = false) (str_of_int index)).
  { assert (Hu : forall d, Forall (fun c => (c =? a)%N = false)
        (map N_of_ascii (list_ascii_of_string (NilEmpty.string_of_uint d)))).
    { induction d; simpl; constructor; try done;
        apply N.eqb_neq; intros <-; vm_compute in Hdigit; discriminate. }
    unfold str_of_int. destruct (Z.to_int index) as [d|d]; simpl.
    - destruct d; try apply Hu. repeat constructor.
      apply N.eqb_neq; intros <-; vm_compute in Hdigit; discriminate.
    - constructor; [by rewrite N.eqb_sym|].
      destruct d; try apply Hu. repeat constructor.
      apply N.eqb_neq; intros <-; vm_compute in Hdigit; discriminate. }
  unfold subst_char. induction Hall as [|c s Hc _ IH]; simpl; [done|].
  by rewrite Hc, IH.
Qed.

(** [generate_filename], with its two calls of [str.replace] and its
    [re.sub] read as character maps. *)
Lemma generate_filename_unfold row index :
  generate_filename row index =
  sanitize
    (subst_char 47 95
       (py_str (row_get row col_order_code (VStr (lit "order_" ++ str_of_int index))))
     ++ lit "_" ++
     subst_char 32 95
       (py_str (row_get row col_name (VStr (lit "customer_" ++ str_of_int index))))
     ++ lit ".docx").
Proof.
  unfold generate_filename.
  change (lit "/") with [47%N]. change (lit " ") with [32%N].
  change (lit "_") with [95%N].
  rewrite re_sub_class_char, !py_replace_char. reflexivity.
Qed.

End FilenameFacts.

(** C1 (as stated) fails: a row whose order code and recipient name are
    present and empty does not fall back to the index.  At index 5 the file
    name is [_.docx], not [order_5_customer_5.docx].  (When the two cells
    are pandas' missing-value marker the name is [nan_nan.docx].) *)
Lemma generate_filename_empty_fields_no_fallback :
  row_empty_fields !! col_order_code = Some (VStr []) /\
  row_empty_fields !! col_name = Some (VStr []) /\
  generate_filename row_empty_fields 5 = lit "_.docx" /\
  generate_filename row_empty_fields 5 <> lit "order_5_customer_5.docx" /\
  generate_filename row_nan_fields 5 = lit "nan_nan.docx".
Proof. repeat split; vm_compute; congruence. Qed.

(** C1 (amended): the file name is [<order key>_<name key>.docx].  The order
    key is the order-code cell with every slash replaced by an underscore
    (and then sanitized) whenever the row has that column, empty or not, and
    [order_<index>] only when the column is absent; likewise the name key is
    the recipient-name cell with every space replaced by an underscore, and
    [customer_<index>] only when the column is absent.  At index 5 a row
    without the two columns yields [order_5_customer_5.docx] and a row with
    both cells empty yields [_.docx]. *)
Theorem generate_filename_keys (row : gmap str value) (index : Z) :
  let order_key :=
    match row !! col_order_code with
    | Some v => sanitize (subst_char 47 95 (py_str v))
    | None => lit "order_" ++ str_of_int index
    end in
  let name_key :=
    match row !! col_name with
    | Some v => sanitize (subst_char 32 95 (py_str v))
    | None => lit "customer_" ++ str_of_int index
    end in
  generate_filename row index = order_key ++ lit "_" ++ name_key ++ lit ".docx" /\
  generate_filename row_no_columns 5 = lit "order_5_customer_5.docx" /\
  generate_filename row_empty_fields 5 = lit "_.docx".
Proof.
  intros order_key name_key.
  split; [|split; vm_compute; reflexivity].
  rewrite generate_filename_unfold, !sanitize_app. unfold row_get.
  assert (Ho : sanitize (subst_char 47 95 (py_str
              (default (VStr (lit "order_" ++ str_of_int index)) (row !! col_order_code))))
               = order_key).
  { subst order_key. destruct (row !! col_order_code) as [v|]; [done|].
    cbn [default py_str]. unfold subst_char at 1. rewrite map_app.
    fold (subst_char 47 95 (str_of_int index)).
    rewrite str_of_int_no_char by done.
    rewrite sanitize_app, (sanitize_id (str_of_int index)) by apply str_of_int_valid.
    done. }
  assert (Hn : sanitize (subst_char 32 95 (py_str
              (default (VStr (lit "customer_" ++ str_of_int index)) (row !! col_name))))
               = name_key).
  { subst name_key. destruct (row !! col_name) as [v|]; [done|].
    cbn [default py_str]. unfold subst_char at 1. rewrite map_app.
    fold (subst_char 32 95 (str_of_int index)).
    rewrite str_of_int_no_char by done.
    rewrite sanitize_app, (sanitize_id (str_of_int index)) by apply str_of_int_valid.
    done. }
  rewrite Ho, Hn. reflexivity.
Qed.


(** ** The replacements dict *)

Section ReplacementsFacts.
Implicit Types (row : gmap str value) (c k v : str) (m : dict).

Lemma field_text_get row c : py_str (row_get row c (VStr [])) = field_text row c.
Proof. unfold row_get, field_text. by destruct (row !! c). Qed.

(** The dict display has eight distinct keys, so its items are its eight
    entries in the order they are written. *)
Lemma dict_display_eight (a p o n : str) :
  dict_display
    [ (lit "{ستون آدرس گیرنده}", a); (lit "{ستون تلفن گیرنده}", p);
      (lit "{ستون کد سفارش}", o); (lit "{ستون نام گیرنده}", n);
      (lit "ستون آدرس گیرنده", a); (lit "ستون تلفن گیرنده", p);
      (lit "ستون کد سفارش", o); (lit "ستون نام گیرنده", n) ] =
  [ (bracketed col_address, a); (bracketed col_phone, p);
    (bracketed col_order_code, o); (bracketed col_name, n);
    (bare col_address, a); (bare col_phone, p);
    (bare col_order_code, o); (bare col_name, n) ].
Proof. vm_compute. reflexivity. Qed.

Lemma replacements_eq row :
  replacements row =
  [ (bracketed col_address, field_text row col_address);
    (bracketed col_phone, field_text row col_phone);
    (bracketed col_order_code, field_text row col_order_code);
    (bracketed col_name, field_text row col_name);
    (bare col_address, field_text row col_address);
    (bare col_phone, field_text row col_phone);
    (bare col_order_code, field_text row col_order_code);
    (bare col_name, field_text row col_name) ].
Proof.
  unfold replacements. rewrite !field_text_get. apply dict_display_eight.
Qed.

End ReplacementsFacts.

(** ** The inner loop on one run *)

Section RunFacts.
Implicit Types (r : run) (m : dict) (k v s pre post : str) (kv : str * str).



Lemma replace_pair_absent r kv : contains kv.1 (text r) = false -> replace_pair r kv = r.
Proof. unfold replace_pair. by intros ->. Qed.


Lemma replace_text_in_run_cons kv m r :
  replace_text_in_run (kv :: m) r = replace_text_in_run m (replace_pair r kv).
Proof. done. Qed.



(** A run whose text holds no key of the dict is left as it is. *)
Lemma replace_text_in_run_no_key m r :
  Forall (fun kv => contains kv.1 (text r) = false) m -> replace_text_in_run m r = r.
Proof.
  induction 1 as [|kv m Hkv _ IH]; [done|].
  by rewrite replace_text_in_run_cons, replace_pair_absent.
Qed.

(** *** Texts that cannot hold a key *)


Lemma inert_not_head c s k :
  inert s = true -> In c s -> key_head (c :: k) = false.
Proof.
  unfold inert. rewrite forallb_forall. intros H Hin.
  specialize (H c Hin). simpl.
  apply andb_true_iff in H as [H1 H2].
  apply negb_true_iff in H1, H2. by rewrite H1, H2.
Qed.

Lemma contains_inert k s : key_head k = true -> inert s = true -> contains k s = false.
Proof.
  intros Hk Hs. destruct k as [|c k]; [done|].
  destruct (contains (c :: k) s) eqn:E; [|done].
  apply contains_head in E. by rewrite (inert_not_head c s k) in Hk.
Qed.








End RunFacts.

(** ** Placeholders of the script in a run *)

Section TokenFacts.
Implicit Types (row : gmap str value) (r : run) (m : dict) (c token pre post : str).




End TokenFacts.



(** ** The replacement map of a row *)

Section MapFacts.
Implicit Types (row : gmap str value) (r : run) (c token : str).



End MapFacts.



(** ** The traversals on the store *)

Section StoreFacts.
Implicit Types (h : gmap loc run) (l : loc) (p : paragraph) (m : dict) (r : run).

Lemma for_each_nil {A S : Type} (body : A -> S -> S) (s : S) : for_each [] body s = s.
Proof. done. Qed.

Lemma for_each_cons {A S : Type} (x : A) (xs : list A) (body : A -> S -> S) (s : S) :
  for_each (x :: xs) body s = for_each xs body (body x s).
Proof. done. Qed.

Lemma for_each_app {A S : Type} (xs ys : list A) (body : A -> S -> S) (s : S) :
  for_each (xs ++ ys) body s = for_each ys body (for_each xs body s).
Proof. apply fold_left_app. Qed.

(** A loop over the members of the members is the loop over the flattened
    list. *)
Lemma for_each_flat_map {A B S : Type} (g : A -> list B) (xs : list A)
    (body : B -> S -> S) (s : S) :
  for_each xs (fun x => for_each (g x) body) s = for_each (flat_map g xs) body s.
Proof.
  revert s. induction xs as [|x xs IH]; intros s; [done|].
  cbn [flat_map]. rewrite for_each_cons, for_each_app. apply IH.
Qed.

Lemma for_each_ext {A S : Type} (xs : list A) (f g : A -> S -> S) (s : S) :
  (forall x s, f x s = g x s) -> for_each xs f s = for_each xs g s.
Proof.
  intros H. revert s. induction xs as [|x xs IH]; intros s; [done|].
  by rewrite !for_each_cons, H, IH.
Qed.

(** The inner loop, written on the store, is one update of the run with the
    fold of the pairs. *)
Lemma for_each_pairs_alter m l h :
  for_each (items m) (fun kv => alter (fun r => replace_pair r kv) l) h =
  alter (replace_text_in_run m) l h.
Proof.
  unfold items. revert h. induction m as [|kv m IH]; intros h.
  - rewrite for_each_nil. symmetry. by apply alter_id.
  - rewrite for_each_cons, IH. apply map_eq. intros j.
    destruct (decide (l = j)) as [->|Hne].
    + rewrite !lookup_alter_eq. by destruct (h !! j).
    + by rewrite !lookup_alter_ne.
Qed.

Lemma replace_text_in_paragraph_runs p m h :
  replace_text_in_paragraph p m h =
  for_each (runs p) (fun l => alter (replace_text_in_run m) l) h.
Proof.
  unfold replace_text_in_paragraph. apply for_each_ext.
  intros l h'. apply for_each_pairs_alter.
Qed.

Lemma replace_text_in_table_runs (t : table) m h :
  replace_text_in_table t m h =
  for_each (table_runs t) (fun l => alter (replace_text_in_run m) l) h.
Proof.
  unfold replace_text_in_table, table_runs.
  rewrite <- for_each_flat_map. apply for_each_ext. intros row h1.
  rewrite <- for_each_flat_map. apply for_each_ext. intros cell h2.
  rewrite <- for_each_flat_map. apply for_each_ext. intros par h3.
  apply replace_text_in_paragraph_runs.
Qed.

(** The block of a header or of a footer, lines 61-65 and 68-72. *)
Lemma story_block_runs (s : option story) m h :
  match s with
  | Some hd =>
      for_each (story_tables hd) (fun table => replace_text_in_table table m)
        (for_each (story_paragraphs hd)
           (fun paragraph => replace_text_in_paragraph paragraph m) h)
  | None => h
  end =
  for_each (story_runs s) (fun l => alter (replace_text_in_run m) l) h.
Proof.
  destruct s as [s|]; [|done]. cbn [story_runs].
  set (visit := fun l : loc => alter (replace_text_in_run m) l).
  rewrite (for_each_ext (story_paragraphs s) _ (fun p => for_each (runs p) visit))
    by (intros; apply replace_text_in_paragraph_runs).
  rewrite (for_each_ext (story_tables s) _ (fun t => for_each (table_runs t) visit))
    by (intros; apply replace_text_in_table_runs).
  by rewrite !for_each_flat_map, <- for_each_app.
Qed.

(** The whole traversal is one loop over the runs it reaches, in the order
    of the visits, each visit running the inner loop on the run. *)
Lemma find_and_replace_in_document_runs (d : document) m h :
  find_and_replace_in_document d m h =
  for_each (visited d) (fun l => alter (replace_text_in_run m) l) h.
Proof.
  unfold find_and_replace_in_document, visited. cbv zeta.
  set (visit := fun l : loc => alter (replace_text_in_run m) l).
  rewrite (for_each_ext (paragraphs d) _ (fun p => for_each (runs p) visit))
    by (intros; apply replace_text_in_paragraph_runs).
  rewrite (for_each_ext (tables d) _ (fun t => for_each (table_runs t) visit))
    by (intros; apply replace_text_in_table_runs).
  rewrite (for_each_ext (sections d) _
             (fun s => for_each (story_runs (header s) ++ story_runs (footer s)) visit)).
  2: { intros s h'. by rewrite for_each_app, !story_block_runs. }
  by rewrite !for_each_flat_map, <- !for_each_app.
Qed.

(** After a loop of updates, a run has undergone the update once per
    visit. *)
Lemma for_each_alter (f : run -> run) (ls : list loc) h l :
  for_each ls (fun x => alter f x) h !! l =
  Nat.iter (count_occ Nat.eq_dec ls l) f <$> h !! l.
Proof.
  revert h. induction ls as [|x ls IH]; intros h.
  - rewrite for_each_nil. by destruct (h !! l).
  - rewrite for_each_cons, IH, lookup_alter. cbn [count_occ].
    destruct (Nat.eq_dec x l) as [->|Hne].
    + rewrite decide_True by done. destruct (h !! l); [|done].
      cbn [fmap option_fmap option_map]. by rewrite Nat.iter_succ_r.
    + by rewrite decide_False.
Qed.


Lemma iter_no_key m n r :
  Forall (fun kv => contains kv.1 (text r) = false) m ->
  Nat.iter n (replace_text_in_run m) r = r.
Proof.
  intros H. induction n as [|n IH]; [done|].
  rewrite Nat.iter_succ, IH. by apply replace_text_in_run_no_key.
Qed.


Lemma visits_no_key m (ls : list loc) h l r :
  h !! l = Some r -> Forall (fun kv => contains kv.1 (text r) = false) m ->
  for_each ls (fun x => alter (replace_text_in_run m) x) h !! l = Some r.
Proof.
  intros Hl Hr. rewrite for_each_alter, Hl. cbn. by rewrite iter_no_key.
Qed.





End StoreFacts.

(** ** The substitution engine *)

(** X1: the traversal visits the runs of the top-level paragraphs, then those of
    the top-level tables (rows, then cells, then the paragraphs of the
    cell), then for every section those of the header paragraphs, header
    tables, footer paragraphs and footer tables; each visit runs the loop
    over the pairs on the run, so a run ends as the loop iterated once per
    visit. *)
Theorem find_and_replace_in_document_order (d : document) (m : dict) (h : gmap loc run) :
  visited d =
    flat_map runs (paragraphs d) ++
    flat_map (fun t => flat_map (fun row => flat_map (fun cell =>
                flat_map runs (cell_paragraphs cell)) (cells row)) (rows t)) (tables d) ++
    flat_map (fun s => story_runs (header s) ++ story_runs (footer s)) (sections d) /\
  find_and_replace_in_document d m h =
    for_each (visited d) (fun l => alter (replace_text_in_run m) l) h /\
  forall l,
    find_and_replace_in_document d m h !! l =
    Nat.iter (count_occ Nat.eq_dec (visited d) l) (replace_text_in_run m) <$> h !! l.
Proof.
  split; [reflexivity|]. split; [apply find_and_replace_in_document_runs|].
  intros l. rewrite find_and_replace_in_document_runs. apply for_each_alter.
Qed.

(** C3 (as stated) fails.  The bracketed placeholder of the order code is a
    key of the map and is split across the two runs of the paragraph, the
    closing brace alone in the second run; neither run holds it whole.  The
    first run holds the bare label, which is a key too, so its text changes:
    the paragraph reads [{A/17}] afterwards. *)
Lemma split_placeholder_first_run_changes :
  bracketed col_order_code ∈ map fst (items (replacements row_full)) /\
  run_texts store_split_brace par_two = [lit "{ستون کد سفارش"; lit "}"] /\
  split_across (bracketed col_order_code) (run_texts store_split_brace par_two) /\
  run_texts (replace_text_in_paragraph par_two (replacements row_full) store_split_brace)
            par_two = [lit "{A/17"; lit "}"].
Proof.
  split; [apply list_elem_of_In; vm_compute; tauto|].
  split; [vm_compute; reflexivity|].
  split; [|vm_compute; reflexivity].
  split; [vm_compute; lia|]. split.
  - exists [], []. repeat split; vm_compute; lia.
  - repeat constructor.
Qed.

(** C3 (amended): a placeholder split across consecutive runs of a paragraph,
    none of which holds a key of the map, is left unreplaced: the store is
    the same at each of these runs, and the placeholder is still split
    across them after the substitution. *)
Theorem split_placeholder_unreplaced (p : paragraph) (m : dict) (h : gmap loc run)
    (k : str) (before mid after : list loc) :
  k ∈ map fst (items m) ->
  runs p = before ++ mid ++ after ->
  split_across k (run_texts h {| runs := mid |}) ->
  (forall l r, l ∈ mid -> h !! l = Some r ->
     Forall (fun kv => contains kv.1 (text r) = false) (items m)) ->
  let h' := replace_text_in_paragraph p m h in
  (forall l, l ∈ mid -> h' !! l = h !! l) /\
  run_texts h' {| runs := mid |} = run_texts h {| runs := mid |} /\
  split_across k (run_texts h' {| runs := mid |}).
Proof.
  intros _ Hp Hsplit Hkeys h'.
  assert (Hsame : forall l, l ∈ mid -> h' !! l = h !! l).
  { intros l Hl. subst h'. rewrite replace_text_in_paragraph_runs.
    destruct (h !! l) as [r|] eqn:E.
    - apply visits_no_key; [done|]. by apply (Hkeys l r).
    - rewrite for_each_alter, E. done. }
  assert (Htexts : run_texts h' {| runs := mid |} = run_texts h {| runs := mid |}).
  { unfold run_texts. cbn [runs]. clear Hsplit Hkeys Hp.
    induction mid as [|x mid IH]; [done|]. cbn [omap list_omap].
    rewrite (Hsame x) by (by left).
    rewrite IH; [done|]. intros l Hl. apply Hsame. by right. }
  split; [exact Hsame|]. split; [exact Htexts|]. by rewrite Htexts.
Qed.

(** C3, at the paragraph whose split falls inside the label: no key of the
    map of a full row is in either run, and both runs keep their text. *)
Lemma split_placeholder_unreplaced_witness :
  run_texts (replace_text_in_paragraph par_two (replacements row_full) store_split_label)
            par_two = [lit "{ستون کد "; lit "سفارش}"].
Proof.
  pose proof (split_placeholder_unreplaced par_two (replacements row_full)
                store_split_label (bracketed col_order_code) [] [0; 1] []) as H.
  cbv zeta in H. destruct H as (_ & Ht & _).
  - apply list_elem_of_In. vm_compute. tauto.
  - reflexivity.
  - split; [vm_compute; lia|]. split.
    + exists [], []. repeat split; vm_compute; lia.
    + vm_compute. repeat constructor.
  - intros l r Hl Hr.
    repeat (apply elem_of_cons in Hl as [->|Hl]); [| |by apply elem_of_nil in Hl].
    + vm_compute in Hr. injection Hr as <-. vm_compute. repeat constructor.
    + vm_compute in Hr. injection Hr as <-. vm_compute. repeat constructor.
  - exact Ht.
Defined.







(** ** The instantiator and the batch loop *)

Section BatchFacts.
Context {World exn : Type} {ops : Ops World exn}.
Implicit Types (w : World) (c : counters) (row : gmap str value) (template_doc : docx).

(** The [try] block, call by call. *)
Lemma create_docx_try_steps template_doc row output_path w :
  create_docx_try template_doc row output_path w =
  match doc_save template_doc temp_path w with
  | (Raise e, w1) => (Raise e, w1)
  | (Ok _, w1) =>
    match Document temp_path w1 with
    | (Raise e, w2) => (Raise e, w2)
    | (Ok new_doc, w2) =>
      match (if os_path_exists temp_path w2 then os_remove temp_path w2
             else (Ok tt, w2)) with
      | (Raise e, w3) => (Raise e, w3)
      | (Ok _, w3) =>
        match text_setter_raises new_doc (replacements row) w3 with
        | Some e => (Raise e, w3)
        | None =>
          match doc_save
                  {| body := body new_doc;
                     store := find_and_replace_in_document (body new_doc)
                                (replacements row) (store new_doc) |}
                  output_path w3 with
          | (Raise e, w4) => (Raise e, w4)
          | (Ok _, w4) => (Ok true, w4)
          end
        end
      end
    end
  end.
Proof.
  unfold create_docx_try, bind, find_and_replace, ret.
  destruct (doc_save template_doc temp_path w) as [[[]|e] w1]; [|done].
  destruct (Document temp_path w1) as [[new_doc|e] w2]; [|done].
  destruct (os_path_exists temp_path w2).
  - destruct (os_remove temp_path w2) as [[[]|e] w3]; [|done].
    destruct (text_setter_raises new_doc (replacements row) w3); [done|].
    by destruct (doc_save _ output_path w3) as [[[]|e] w4].
  - destruct (text_setter_raises new_doc (replacements row) w2); [done|].
    by destruct (doc_save _ output_path w2) as [[[]|e] w4].
Qed.

Lemma create_docx_try_true template_doc row output_path w b w' :
  create_docx_try template_doc row output_path w = (Ok b, w') -> b = true.
Proof.
  rewrite create_docx_try_steps. intros H.
  repeat match type of H with
         | context [match ?x with _ => _ end] => destruct x
         end; congruence.
Qed.

(** The handler turns every exception of the [try] block into [False]. *)
Lemma create_docx_from_template_result template_doc row output_path w :
  create_docx_from_template template_doc row output_path w =
  match create_docx_try template_doc row output_path w with
  | (Ok _, w') => (Ok true, w')
  | (Raise _, w') => (Ok false, w')
  end.
Proof.
  unfold create_docx_from_template, try_except.
  destruct (create_docx_try template_doc row output_path w) as [[b|e] w'] eqn:E; [|done].
  by rewrite (create_docx_try_true _ _ _ _ _ _ E).
Qed.


(** One turn of the loop of [main]. *)
Lemma process_row_step template_doc dir index row c w created w' :
  create_docx_from_template template_doc row
    (os_path_join dir (generate_filename row (index + 1))) w = (Ok created, w') ->
  process_row template_doc dir index row (c, w) =
  (Ok tt, (count_outcome (exn := exn) c (Ok created), w')).
Proof.
  intros H. unfold process_row, try_except, bind, on_world. cbn [fst snd].
  rewrite H. by destruct created.
Qed.






End BatchFacts.

(** *** The simulated file system *)

(** The scenario of a table of three rows where saving the output of the
    second row fails: the first and the third row are counted as succeeded,
    the second as failed. *)
Example main_loop_one_failure :
  (main_loop (ops := sim_ops (SaveFails (lit "generated_documents/B-2_Reza.docx")))
     template_small df_three ({| successful_count := 0; failed_count := 0 |}, ∅)).2.1
  = ({| successful_count := 2; failed_count := 1 |}).
Proof. vm_compute. reflexivity. Qed.

(** The scenario of a table of three rows and no fault: three output files
    named after the rows, no temporary copy left, three rows succeeded. *)
Example main_loop_no_failure :
  let final := main_loop (ops := sim_ops NoFault) template_small df_three
                 ({| successful_count := 0; failed_count := 0 |}, ∅) in
  final.2.1 = {| successful_count := 3; failed_count := 0 |} /\
  dom final.2.2 =
    {[ lit "generated_documents/A_17_Sara_Ahmadi.docx";
       lit "generated_documents/B-2_Reza.docx";
       lit "generated_documents/C3_Mina.docx" ]} /\
  (store <$> (final.2.2 !! lit "generated_documents/B-2_Reza.docx" ≫= fun f =>
                match f with Package d => Some d | Truncated => None end)) =
    Some {[ 0 := {| text := lit "Dear Reza,"; fmt := heavy |};
            1 := {| text := lit " welcome."; fmt := plain |};
            2 := {| text := lit "B-2"; fmt := plain |};
            3 := {| text := lit "Forward"; fmt := heavy |};
            4 := {| text := lit "{ستون نام گیرنده}"; fmt := plain |} ]}.
Proof. cbv zeta. repeat split; vm_compute; reflexivity. Qed.

(** C9 fails on the code.  The copy is removed right after it has been
    reloaded, and only there.  When reloading raises, or when saving the
    copy raises after the file has been created, or when removing it raises,
    [create_docx_from_template] returns [False] and the file
    [temp_template.docx] is still there.  (When a later call raises, the
    substitution or the saving of the output, the copy is already gone.) *)
Theorem temp_file_left_behind (template_doc : docx) (row : gmap str value)
    (output_path : str) :
  create_docx_from_template (ops := sim_ops LoadFails) template_doc row output_path ∅
    = (Ok false, {[ temp_path := Package template_doc ]}) /\
  create_docx_from_template (ops := sim_ops (SaveFails temp_path))
      template_doc row output_path ∅
    = (Ok false, {[ temp_path := Truncated ]}) /\
  create_docx_from_template (ops := sim_ops RemoveFails) template_doc row output_path ∅
    = (Ok false, {[ temp_path := Package template_doc ]}) /\
  create_docx_from_template (ops := sim_ops SetterFails) template_doc row output_path ∅
    = (Ok false, ∅).
Proof.
  repeat split; rewrite create_docx_from_template_result, create_docx_try_steps;
    vm_compute; reflexivity.
Qed.

(** ** The report on the template *)

Section AnalysisFacts.
Implicit Types (s t inner rest : str) (c : char) (ps : list piece).



Lemma span_body_app inner rest :
  125%N ∉ inner -> span_body (inner ++ 125%N :: rest) = (inner, 125%N :: rest).
Proof.
  induction inner as [|c inner IH]; intros H; [done|].
  rewrite not_elem_of_cons in H. destruct H as [Hc H].
  cbn [app span_body]. destruct (N.eqb_spec c 125) as [->|_]; [done|].
  by rewrite IH.
Qed.


Lemma findall_from_skip n s :
  n <= length s -> findall_from n s = findall_from 0 (drop n s).
Proof.
  revert n. induction s as [|c s IH]; intros n Hn; simpl in Hn.
  - by destruct n.
  - destruct n as [|n]; [done|]. cbn [findall_from drop]. apply IH. lia.
Qed.

(** A stretch without opening brace yields no match and hides none. *)
Lemma findall_plain t s : 123%N ∉ t -> findall_from 0 (t ++ s) = findall_from 0 s.
Proof.
  induction t as [|c t IH]; intros H; [done|].
  rewrite not_elem_of_cons in H. destruct H as [Hc H].
  cbn [app findall_from]. destruct (N.eqb_spec c 123) as [->|_]; [done|].
  by apply IH.
Qed.

(** A placeholder at the head of the text is the first match. *)
Lemma findall_token inner s :
  inner <> [] -> 125%N ∉ inner ->
  findall_from 0 (braced inner ++ s) = braced inner :: findall_from 0 s.
Proof.
  intros Hne Hin. unfold braced. cbn [app findall_from]. rewrite N.eqb_refl.
  rewrite <- app_assoc. cbn [app]. rewrite span_body_app by done.
  destruct inner as [|b inner]; [done|]. f_equal.
  rewrite findall_from_skip by (rewrite length_app; simpl; lia).
  f_equal. rewrite Nat.add_1_r.
  change (S (length (b :: inner))) with (length ((b :: inner) ++ [125%N]) - 0 + 0)
    || idtac.
  replace (S (length (b :: inner))) with (length ((b :: inner) ++ [125%N]))
    by (rewrite length_app; simpl; lia).
  change ((b :: inner) ++ 125%N :: s) with ((b :: inner) ++ [125%N] ++ s).
  rewrite app_assoc. apply drop_app_length.
Qed.



Lemma findall_render ps :
  Forall well_formed ps -> re_findall_braces (render ps) = tokens ps.
Proof.
  unfold re_findall_braces, render, tokens.
  induction 1 as [|p ps Hp _ IH]; [done|].
  destruct p as [t|inner]; cbn [map concat omap list_omap render_piece]; cbn in Hp.
  - rewrite findall_plain by done. exact IH.
  - destruct Hp as [Hne Hin]. rewrite findall_token by done. by rewrite IH.
Qed.


End AnalysisFacts.

Section OrderFacts.
Implicit Types (a b c : str).

Lemma str_leb_refl a : str_leb a a = true.
Proof.
  induction a as [|x a IH]; [done|]. cbn [str_leb].
  rewrite N.ltb_irrefl, N.eqb_refl. exact IH.
Qed.

Lemma str_leb_total a b : str_leb a b = true \/ str_leb b a = true.
Proof.
  revert b. induction a as [|x a IH]; intros [|y b]; cbn [str_leb]; auto.
  destruct (N.ltb_spec x y), (N.ltb_spec y x), (N.eqb_spec x y), (N.eqb_spec y x);
    auto; lia.
Qed.

Lemma str_leb_trans a b c :
  str_leb a b = true -> str_leb b c = true -> str_leb a c = true.
Proof.
  revert b c. induction a as [|x a IH]; intros [|y b] [|z c]; cbn [str_leb]; try done.
  destruct (N.ltb_spec x y), (N.ltb_spec y z), (N.ltb_spec x z),
    (N.eqb_spec x y), (N.eqb_spec y z), (N.eqb_spec x z);
    try done; try lia. apply IH.
Qed.

Lemma str_leb_antisym a b : str_leb a b = true -> str_leb b a = true -> a = b.
Proof.
  revert b. induction a as [|x a IH]; intros [|y b]; cbn [str_leb]; try done.
  destruct (N.ltb_spec x y), (N.ltb_spec y x), (N.eqb_spec x y), (N.eqb_spec y x);
    try done; try lia. subst. intros H1 H2. f_equal. by apply IH.
Qed.

#[export] Instance str_le_total : Total str_le.
Proof. intros a b. apply str_leb_total. Qed.

#[export] Instance str_le_trans : Transitive str_le.
Proof. intros a b c. apply str_leb_trans. Qed.

#[export] Instance str_le_antisym : AntiSymm (=) str_le.
Proof. intros a b. apply str_leb_antisym. Qed.

End OrderFacts.

Section ReportFacts.
Implicit Types (d : docx) (x t : str).




End ReportFacts.


(** X7: on a text written as stretches without opening brace and
    placeholders whose inside is not empty and holds no closing brace, the
    pattern finds exactly the placeholders, in the order of the text and
    with their repetitions. *)
Theorem re_findall_braces_render (ps : list piece) :
  Forall well_formed ps -> re_findall_braces (render ps) = tokens ps.
Proof. apply findall_render. Qed.

(** X7, at a sentence with two placeholders and a stray closing brace. *)
Lemma re_findall_braces_render_witness :
  re_findall_braces (lit "To {name}, re: {order} } end") = [lit "{name}"; lit "{order}"].
Proof.
  apply (re_findall_braces_render
           [Plain (lit "To "); Token (lit "name"); Plain (lit ", re: ");
            Token (lit "order"); Plain (lit " } end")]).
  repeat constructor; cbn [well_formed]; try discriminate;
    intros H; apply list_elem_of_In in H; vm_compute in H; intuition discriminate.
Defined.




(** ** More on [generate_filename] *)

Section FilenameMore.
Implicit Types (s : str) (row : gmap str value) (index : Z).

Lemma sanitize_subst_slash s : sanitize (subst_char 47 95 s) = sanitize s.
Proof.
  unfold sanitize, subst_char. rewrite map_map. apply map_ext. intros c.
  destruct (N.eqb_spec c 47) as [->|Hne]; reflexivity.
Qed.

Lemma generate_filename_no_slash row index : 47%N ∉ generate_filename row index.
Proof.
  rewrite generate_filename_unfold. intros H.
  pose proof (sanitize_clean
    (subst_char 47 95
       (py_str (row_get row col_order_code (VStr (lit "order_" ++ str_of_int index))))
     ++ lit "_" ++
     subst_char 32 95
       (py_str (row_get row col_name (VStr (lit "customer_" ++ str_of_int index))))
     ++ lit ".docx")) as Hclean.
  rewrite Forall_forall in Hclean. specialize (Hclean _ H). discriminate.
Qed.

End FilenameMore.

(** X10: the path under which a row is saved is the output directory, a
    slash, and the file name of the row; the file name holds no slash and
    ends in [.docx], so the path names a file directly inside the output
    directory, and never the temporary copy of the template. *)
Theorem generate_filename_output_path (row : gmap str value) (index : Z) :
  let filename := generate_filename row index in
  os_path_join (lit "generated_documents") filename
    = lit "generated_documents/" ++ filename /\
  (exists stem, filename = stem ++ lit ".docx") /\
  (47%N ∉ filename) /\
  os_path_join (lit "generated_documents") filename <> temp_path.
Proof.
  intros filename.
  assert (Hslash : 47%N ∉ filename) by apply generate_filename_no_slash.
  assert (Hjoin : os_path_join (lit "generated_documents") filename
                  = lit "generated_documents/" ++ filename).
  { unfold os_path_join. destruct filename as [|c f] eqn:E; [reflexivity|].
    cbn [starts_with]. destruct (N.eqb_spec 47 c) as [<-|_]; [|reflexivity].
    exfalso. apply Hslash. by left. }
  split; [exact Hjoin|]. split; [|split; [exact Hslash|]].
  - subst filename. rewrite generate_filename_unfold, !sanitize_app.
    eexists. rewrite !app_assoc. f_equal.
  - rewrite Hjoin. unfold temp_path. cbn [app]. discriminate.
Qed.

(** X11: the file name of a row that has the two columns depends on
    nothing but the two cells, and on these only up to the replacement of
    the invalid characters: two rows whose order codes and recipient names
    agree after that replacement get the same file name, whatever their
    indices and their other columns (the later output then overwrites the
    earlier one). *)
Theorem generate_filename_collision (row row' : gmap str value) (i j : Z)
    (order order' name name' : value) :
  row !! col_order_code = Some order -> row' !! col_order_code = Some order' ->
  row !! col_name = Some name -> row' !! col_name = Some name' ->
  sanitize (py_str order) = sanitize (py_str order') ->
  sanitize (subst_char 32 95 (py_str name)) = sanitize (subst_char 32 95 (py_str name')) ->
  generate_filename row i = generate_filename row' j.
Proof.
  intros Ho Ho' Hn Hn' Eo En.
  rewrite !generate_filename_unfold, !sanitize_app. unfold row_get.
  rewrite Ho, Ho', Hn, Hn'. cbn [default from_option]. unfold id.
  by rewrite !sanitize_subst_slash, Eo, En.
Qed.

(** X11, at two rows whose order codes differ in a slash and a colon and
    whose names differ in a space and an underscore. *)
Lemma generate_filename_collision_witness :
  generate_filename row_full 1
  = generate_filename
      {[ col_order_code := VStr (lit "A:17"); col_name := VStr (lit "Sara_Ahmadi") ]} 2.
Proof.
  apply (generate_filename_collision _ _ 1 2
           (VStr (lit "A/17")) (VStr (lit "A:17"))
           (VStr (lit "Sara Ahmadi")) (VStr (lit "Sara_Ahmadi")));
    vm_compute; reflexivity.
Defined.

(** ** More on the substitution *)

Section SubstitutionMore.
Implicit Types (row : gmap str value) (r : run) (h : gmap loc run) (l : loc).

Lemma replacements_keys_head row :
  Forall (fun kv => key_head kv.1 = true) (replacements row).
Proof. rewrite replacements_eq. repeat constructor. Qed.

Lemma replacements_inert_run row r :
  inert (text r) = true ->
  Forall (fun kv => contains kv.1 (text r) = false) (replacements row).
Proof.
  intros Hr. eapply Forall_impl; [apply replacements_keys_head|].
  intros kv Hkv. by apply contains_inert.
Qed.


End SubstitutionMore.


(** X13: whatever the row, the substitution leaves alone every run whose
    text holds neither an opening brace nor the letter seen, wherever the
    run is in the document and however often it is visited. *)
Theorem inert_run_untouched (d : document) (row : gmap str value) (h : gmap loc run)
    (l : loc) (r : run) :
  h !! l = Some r -> inert (text r) = true ->
  find_and_replace_in_document d (replacements row) h !! l = Some r.
Proof.
  intros Hl Hr. rewrite find_and_replace_in_document_runs.
  apply visits_no_key; [done|]. by apply replacements_inert_run.
Qed.

(** X13, at the second run of the paragraph of the sample document. *)
Lemma inert_run_untouched_witness :
  find_and_replace_in_document doc_small (replacements row_full) store_small !! 1
  = Some {| text := lit " welcome."; fmt := plain |}.
Proof. apply inert_run_untouched; vm_compute; reflexivity. Defined.



(** ** Reading the inputs, [main] and the script *)

Section ScriptFacts.
Context {World exn : Type} {sops : ScriptOps World exn}.
Implicit Types (w : World) (template_doc : docx) (df : list (gmap str value)).






Lemma check_files_exist_result w :
  check_files_exist w =
  (Ok (os_path_exists (lit "csv.csv") w && os_path_exists (lit "Forward Template.docx") w),
   w).
Proof.
  unfold check_files_exist, missing_files, required_files. cbn [List.filter].
  destruct (os_path_exists (lit "csv.csv") w),
           (os_path_exists (lit "Forward Template.docx") w); reflexivity.
Qed.

End ScriptFacts.

Section ScriptTheorems.
Context {World exn : Type} {sops : ScriptOps World exn}.
Implicit Types (w : World).




(** X18: the script first checks that the table and the template exist.
    When one of them is missing it exits with status 1 and has changed
    nothing, not even created the output directory; otherwise it runs
    [main]. *)
Theorem script_checks_inputs_first w :
  (os_path_exists (lit "csv.csv") w && os_path_exists (lit "Forward Template.docx") w
     = false ->
   script w = (Exit 1, w)) /\
  (os_path_exists (lit "csv.csv") w && os_path_exists (lit "Forward Template.docx") w
     = true ->
   script w = match main w with
              | (Ok _, w2) => (Completed, w2)
              | (Raise e, w2) => (Uncaught e, w2)
              end).
Proof.
  unfold script. rewrite check_files_exist_result. split; intros ->; reflexivity.
Qed.

End ScriptTheorems.



(** X18, at the empty disk. *)
Lemma script_checks_inputs_first_witness :
  script (sops := disk_ops NoFault NoScriptFault) disk_empty = (Exit 1, disk_empty).
Proof.
  apply (script_checks_inputs_first (sops := disk_ops NoFault NoScriptFault) disk_empty).
  vm_compute. reflexivity.
Defined.

(** ** The instantiator on the simulated file system *)

Section DiskFacts.
Implicit Types (fs : gmap str file) (template_doc : docx) (row : gmap str value)
  (df : list (gmap str value)) (c : counters).

(** The operations of the simulated file system under the faults that
    leave loading and removing alone. *)
Lemma sim_load_remove (f : fault) (path : str) fs :
  f = NoFault \/ (exists p, f = SaveFails p) ->
  Document (Ops := sim_ops f) path fs =
    match fs !! path with
    | Some (Package d) => (Ok d, fs)
    | _ => (Raise PackageNotFoundError, fs)
    end /\
  os_path_exists (Ops := sim_ops f) path fs = bool_decide (is_Some (fs !! path)) /\
  os_remove (Ops := sim_ops f) path fs =
    match fs !! path with
    | Some _ => (Ok tt, delete path fs)
    | None => (Raise OSError, fs)
    end /\
  forall d m fs', text_setter_raises (Ops := sim_ops f) d m fs' = None.
Proof. intros [->|[p ->]]; repeat split. Qed.

Lemma create_docx_after_copy (f : fault) template_doc row output_path fs :
  f = NoFault \/ (exists p, f = SaveFails p) ->
  doc_save (Ops := sim_ops f) template_doc temp_path fs
    = (Ok tt, <[temp_path := Package template_doc]> fs) ->
  create_docx_from_template (ops := sim_ops f) template_doc row output_path fs =
  match doc_save (Ops := sim_ops f) (substituted template_doc row) output_path
          (delete temp_path fs) with
  | (Ok _, fs') => (Ok true, fs')
  | (Raise _, fs') => (Ok false, fs')
  end.
Proof.
  intros Hf Hsave.
  rewrite create_docx_from_template_result, create_docx_try_steps, Hsave.
  destruct (sim_load_remove f temp_path (<[temp_path := Package template_doc]> fs) Hf)
    as (HD & HE & HR & HT).
  rewrite HD, lookup_insert_eq. cbv beta iota.
  rewrite HE, lookup_insert_eq, bool_decide_eq_true_2 by eauto.
  rewrite HR, lookup_insert_eq. cbv beta iota.
  rewrite HT, delete_insert_eq. fold (substituted template_doc row).
  by destruct (doc_save _ output_path (delete temp_path fs)) as [[[]|e] fs'].
Qed.

Lemma create_docx_no_fault template_doc row output_path fs :
  create_docx_from_template (ops := sim_ops NoFault) template_doc row output_path fs =
  (Ok true, <[output_path := Package (substituted template_doc row)]> (delete temp_path fs)).
Proof. rewrite create_docx_after_copy; [reflexivity|by left|reflexivity]. Qed.

Lemma create_docx_save_fault p template_doc row output_path fs :
  p <> temp_path ->
  create_docx_from_template (ops := sim_ops (SaveFails p)) template_doc row output_path fs =
  if decide (output_path = p)
  then (Ok false, <[output_path := Truncated]> (delete temp_path fs))
  else (Ok true, <[output_path := Package (substituted template_doc row)]>
                   (delete temp_path fs)).
Proof.
  intros Hp. rewrite create_docx_after_copy.
  - cbn [doc_save sim_ops]. by destruct (decide (output_path = p)).
  - right. by exists p.
  - cbn [doc_save sim_ops]. by rewrite decide_False by congruence.
Qed.

Lemma process_rows_no_fault template_doc dir index df c fs :
  process_rows (ops := sim_ops NoFault) template_doc dir index df (c, fs) =
  (Ok tt,
   ({| successful_count := successful_count c + length df;
       failed_count := failed_count c |},
    fold_left (fun fs pr => <[pr.1 := Package (substituted template_doc pr.2)]>
                              (delete temp_path fs))
              (zip (output_paths dir index df) df) fs)).
Proof.
  revert index c fs. induction df as [|row df IH]; intros index c fs.
  - cbn. destruct c. cbn. by rewrite Nat.add_0_r.
  - cbn [process_rows output_paths zip_with fold_left length]. unfold bind at 1.
    rewrite (process_row_step _ _ _ _ _ _ _ _ (create_docx_no_fault _ _ _ _)).
    rewrite IH. cbn. do 3 f_equal. lia.
Qed.

Lemma outcomes_save_fault p template_doc dir index df fs :
  p <> temp_path ->
  outcomes (ops := sim_ops (SaveFails p)) template_doc dir index df fs =
  map (fun path => Ok (bool_decide (path <> p))) (output_paths dir index df).
Proof.
  intros Hp. revert index fs. induction df as [|row df IH]; intros index fs; [done|].
  cbn [outcomes output_paths map]. rewrite create_docx_save_fault by done.
  destruct (decide (os_path_join dir (generate_filename row (index + 1)) = p)) as [E|E].
  - rewrite IH. f_equal. by rewrite bool_decide_eq_false_2 by (intros H; by apply H).
  - rewrite IH. f_equal. by rewrite bool_decide_eq_true_2.
Qed.

End DiskFacts.

(** X19: on a file system where a saved document loads back unchanged and
    nothing fails, the instantiator returns [True]; afterwards the output
    path holds the template with the dict of the row substituted, whatever
    was there before; a file named [temp_template.docx], also one that
    existed before the call, is gone; every other file is as it was. *)
Theorem create_docx_from_template_on_disk (template_doc : docx) (row : gmap str value)
    (output_path : str) (fs : gmap str file) :
  let result := create_docx_from_template (ops := sim_ops NoFault)
                  template_doc row output_path fs in
  result.1 = Ok true /\
  result.2 !! output_path = Some (Package (substituted template_doc row)) /\
  (output_path <> temp_path -> result.2 !! temp_path = None) /\
  (forall path, path <> output_path -> path <> temp_path -> result.2 !! path = fs !! path).
Proof.
  cbv zeta. rewrite create_docx_no_fault. cbn [fst snd].
  split; [done|]. split; [apply lookup_insert_eq|]. split.
  - intros H. rewrite lookup_insert_ne by done. apply lookup_delete_eq.
  - intros path H1 H2. rewrite lookup_insert_ne by done. by apply lookup_delete_ne.
Qed.

(** X19, at a file system that already holds a file under the name of the
    temporary copy: the file is lost. *)
Lemma create_docx_from_template_on_disk_witness :
  (create_docx_from_template (ops := sim_ops NoFault) template_small row_full
     (lit "generated_documents/A_17_Sara_Ahmadi.docx")
     {[ temp_path := Truncated ]}).2 !! temp_path = None.
Proof.
  apply (create_docx_from_template_on_disk template_small row_full
           (lit "generated_documents/A_17_Sara_Ahmadi.docx") {[ temp_path := Truncated ]}).
  discriminate.
Defined.

(** X5: on the same file system the loop of [main] counts every row of any
    table as succeeded and none as failed, and leaves the files the
    instantiations have written one after the other in the order of the
    rows: a row whose file name has been used by an earlier row replaces
    the output of that row. *)
Theorem main_loop_on_disk (template_doc : docx) (df : list (gmap str value))
    (c0 : counters) (fs : gmap str file) :
  main_loop (ops := sim_ops NoFault) template_doc df (c0, fs) =
  (Ok tt,
   ({| successful_count := length df; failed_count := 0 |},
    fold_left (fun fs pr => <[pr.1 := Package (substituted template_doc pr.2)]>
                              (delete temp_path fs))
              (zip (output_paths (lit "generated_documents") 0 df) df) fs)).
Proof. unfold main_loop. cbn [snd]. by rewrite process_rows_no_fault. Qed.

(** X4: on a file system where saving to one path fails (a path other than
    that of the temporary copy) and everything else works, the rows the
    loop counts as failed are exactly the rows whose output path is that
    path; all the others succeed, before and after a failure. *)
Theorem save_failure_hits_its_rows (p : str) (template_doc : docx)
    (df : list (gmap str value)) (fs : gmap str file) :
  p <> temp_path ->
  outcomes (ops := sim_ops (SaveFails p)) template_doc (lit "generated_documents") 0 df fs =
  map (fun path => Ok (bool_decide (path <> p)))
      (output_paths (lit "generated_documents") 0 df).
Proof. apply outcomes_save_fault. Qed.

(** X4, at the table of three rows with a failure on the path of the
    second. *)
Lemma save_failure_hits_its_rows_witness :
  outcomes (ops := sim_ops (SaveFails (lit "generated_documents/B-2_Reza.docx")))
    template_small (lit "generated_documents") 0 df_three ∅
  = [Ok true; Ok false; Ok true].
Proof.
  rewrite (save_failure_hits_its_rows (lit "generated_documents/B-2_Reza.docx"))
    by discriminate.
  vm_compute. reflexivity.
Defined.
